(** * Mile.Xaml: the project properties header

    [Mile.Project.Properties.h] is a configuration header: an include guard,
    ten object-like macro definitions, one definition that is commented out,
    and a trailing [#include].  It is embedded here as the list of its
    directives, and read through a small model of the C preprocessor
    (conditional inclusion, [#define], [#undef], [#include]) so that what a
    translation unit sees after including the header, once or repeatedly,
    is computed from the text of the file. *)

From Stdlib Require Import ZArith.
From stdpp Require Import gmap strings list fin_maps.

(** ** Preprocessing tokens and source lines *)

(** The replacement list of a macro is a sequence of preprocessing tokens.
    The header uses decimal integer constants and narrow string literals;
    the commented-out tag is a wide string literal ([L]-prefixed).  A
    number is a decimal constant without suffix, given by its value, which
    stands for its spelling; a string literal is given by the characters
    between its quotes.  Other spellings of a number, identifiers and
    punctuators are not represented. *)
Inductive pp_token : Type :=
| PpNumber (n : Z)
| StringLiteral (s : string)
| WideStringLiteral (s : string).

#[global] Instance pp_token_eq_dec : EqDecision pp_token.
Proof. solve_decision. Defined.

(** A logical source line, after line splicing (a [#define] whose text is
    continued with a backslash is one line).  [Commented l] is a line [l]
    behind [//]: the preprocessor sees a comment. *)
Inductive line : Type :=
| BlockComment (text : list string)
| Blank
| Commented (l : line)
| Ifndef (name : string)
| Define (name : string) (body : list pp_token)
| Undef (name : string)
| Endif
| Include (file : string).

(** ** The header, line by line *)

Definition Mile_Project_Properties_h : list line :=
  [ BlockComment                                             (* lines 1-9 *)
      [ "/*";
        " * PROJECT:   Mouri Internal Library Essentials";
        " * FILE:      Mile.Project.Properties.h";
        " * PURPOSE:   Project Properties for projects with Mile.Project";
        " *";
        " * LICENSE:   The MIT License";
        " *";
        " * DEVELOPER: Mouri_Naruto (Mouri_Naruto AT Outlook.com)";
        " */" ];
    Blank;
    Ifndef "MILE_PROJECT_PROPERTIES";                        (* line 11 *)
    Define "MILE_PROJECT_PROPERTIES" [];                     (* line 12 *)
    Blank;
    Define "MILE_PROJECT_VERSION_MAJOR" [PpNumber 1];        (* line 14 *)
    Define "MILE_PROJECT_VERSION_MINOR" [PpNumber 0];        (* line 15 *)
    Define "MILE_PROJECT_VERSION_BUILD" [PpNumber 360];      (* line 16 *)
    Define "MILE_PROJECT_VERSION_REVISION" [PpNumber 0];     (* line 17 *)
    Blank;
    Commented
      (Define "MILE_PROJECT_VERSION_TAG"
              [WideStringLiteral "Alpha 1"]);                (* line 19 *)
    Blank;
    Define "MILE_PROJECT_COMPANY_NAME"
           [StringLiteral "Project Mile"];                   (* lines 21-22 *)
    Define "MILE_PROJECT_FILE_DESCRIPTION"
           [StringLiteral "Mile.Xaml"];                      (* lines 23-24 *)
    Define "MILE_PROJECT_INTERNAL_NAME"
           [StringLiteral "Mile.Xaml"];                      (* lines 25-26 *)
    Define "MILE_PROJECT_LEGAL_COPYRIGHT"
           [StringLiteral "© Project Mile. All rights reserved."];
                                                             (* lines 27-28 *)
    Define "MILE_PROJECT_ORIGINAL_FILENAME"
           [StringLiteral "Mile.Xaml.dll"];                  (* lines 29-30 *)
    Define "MILE_PROJECT_PRODUCT_NAME"
           [StringLiteral "Mile.Xaml"];                      (* lines 31-32 *)
    Blank;
    Endif;                                                   (* line 34 *)
    Blank;
    Include "Mile.Project.Version.h" ].                      (* line 36 *)

(** ** The preprocessor *)

(** What a directive did when it was executed.  A [#define] of a name that
    already has a different replacement list is a redefinition, which
    compilers diagnose. *)
Inductive event : Type :=
| Defined (name : string)
| Redefined (name : string)
| Undefined (name : string)
| Included (file : string).

#[global] Instance event_eq_dec : EqDecision event.
Proof. solve_decision. Defined.

Inductive pp_error : Type :=
| EndifWithoutIf
| UnterminatedConditional
| IncludeNotFound (file : string).

Inductive result (A : Type) : Type :=
| Ok (a : A)
| Err (e : pp_error).
Arguments Ok {A} a.
Arguments Err {A} e.

Definition bind {A B : Type} (r : result A) (k : A -> result B) : result B :=
  match r with
  | Ok a => k a
  | Err e => Err e
  end.

(** The macro table, the stack of open conditionals (innermost first; an
    entry says whether the lines of that group are processed) and the
    events so far, oldest first.  [Mile.Project.Version.h] belongs to
    Mile.Project, not to this header: its inclusion is recorded as an
    event and its contents are left out. *)
Record pp_state : Type := PpState {
  macros : gmap string (list pp_token);
  cond_stack : list bool;
  events : list event
}.

Definition initial : pp_state :=
  {| macros := ∅; cond_stack := []; events := [] |}.

Definition active (s : pp_state) : bool :=
  match cond_stack s with
  | [] => true
  | b :: _ => b
  end.

Definition is_defined (name : string) (s : pp_state) : bool :=
  match macros s !! name with
  | Some _ => true
  | None => false
  end.

Definition define (name : string) (body : list pp_token) (s : pp_state)
  : pp_state :=
  {| macros := <[name := body]> (macros s);
     cond_stack := cond_stack s;
     events := events s ++
       [match macros s !! name with
        | Some old => if decide (old = body) then Defined name
                      else Redefined name
        | None => Defined name
        end] |}.

Definition undef (name : string) (s : pp_state) : pp_state :=
  {| macros := delete name (macros s);
     cond_stack := cond_stack s;
     events := events s ++ [Undefined name] |}.

Definition include (file : string) (s : pp_state) : pp_state :=
  {| macros := macros s;
     cond_stack := cond_stack s;
     events := events s ++ [Included file] |}.

Definition push_cond (b : bool) (s : pp_state) : pp_state :=
  {| macros := macros s;
     cond_stack := b :: cond_stack s;
     events := events s |}.

Definition set_cond_stack (st : list bool) (s : pp_state) : pp_state :=
  {| macros := macros s; cond_stack := st; events := events s |}.

(** One line.  Comments and blank lines do nothing; inside a group that is
    skipped only the nesting of conditionals is followed.  An [#include]
    is taken to find its file here; [step_in] below has the search path
    and the failure. *)
Definition step (l : line) (s : pp_state) : result pp_state :=
  match l with
  | BlockComment _ | Blank | Commented _ => Ok s
  | Ifndef name => Ok (push_cond (active s && negb (is_defined name s)) s)
  | Endif =>
      match cond_stack s with
      | [] => Err EndifWithoutIf
      | _ :: st => Ok (set_cond_stack st s)
      end
  | Define name body => Ok (if active s then define name body s else s)
  | Undef name => Ok (if active s then undef name s else s)
  | Include file => Ok (if active s then include file s else s)
  end.

Fixpoint run (ls : list line) (s : pp_state) : result pp_state :=
  match ls with
  | [] => Ok s
  | l :: ls' => bind (step l s) (run ls')
  end.

(** Including a file from the top level of a translation unit: the file
    is read with no conditional open, and every conditional it opens must
    be closed by its end.  This is the directive where the includer
    processes it ([active s = true]); [include_directive] below tests
    that. *)
Definition include_file (f : list line) (s : pp_state) : result pp_state :=
  bind (run f (set_cond_stack [] s)) (fun s' =>
    match cond_stack s' with
    | [] => Ok (set_cond_stack (cond_stack s) s')
    | _ :: _ => Err UnterminatedConditional
    end).

(** A translation unit that includes the header [k] times. *)
Fixpoint include_times (k : nat) (s : pp_state) : result pp_state :=
  match k with
  | O => Ok s
  | S k' => bind (include_file Mile_Project_Properties_h s) (include_times k')
  end.

(** ** Reading the properties *)

(** A macro used as an integer, as a narrow string, and as the optional
    version tag (a string literal, wide in the commented-out example). *)
Definition read_int (s : pp_state) (name : string) : option Z :=
  match macros s !! name with
  | Some [PpNumber n] => Some n
  | _ => None
  end.

Definition read_string (s : pp_state) (name : string) : option string :=
  match macros s !! name with
  | Some [StringLiteral v] => Some v
  | _ => None
  end.

Definition read_tag (s : pp_state) (name : string) : option string :=
  match macros s !! name with
  | Some [WideStringLiteral v] => Some v
  | Some [StringLiteral v] => Some v
  | _ => None
  end.

(** The record of the data model. *)
Record ProjectProperties : Type := {
  versionMajor : Z;
  versionMinor : Z;
  versionBuild : Z;
  versionRevision : Z;
  versionTag : option string;
  companyName : string;
  fileDescription : string;
  internalName : string;
  legalCopyright : string;
  originalFilename : string;
  productName : string
}.

Definition project_properties (s : pp_state) : option ProjectProperties :=
  major ← read_int s "MILE_PROJECT_VERSION_MAJOR";
  minor ← read_int s "MILE_PROJECT_VERSION_MINOR";
  build ← read_int s "MILE_PROJECT_VERSION_BUILD";
  revision ← read_int s "MILE_PROJECT_VERSION_REVISION";
  company ← read_string s "MILE_PROJECT_COMPANY_NAME";
  description ← read_string s "MILE_PROJECT_FILE_DESCRIPTION";
  internal ← read_string s "MILE_PROJECT_INTERNAL_NAME";
  copyright ← read_string s "MILE_PROJECT_LEGAL_COPYRIGHT";
  filename ← read_string s "MILE_PROJECT_ORIGINAL_FILENAME";
  product ← read_string s "MILE_PROJECT_PRODUCT_NAME";
  Some {| versionMajor := major;
          versionMinor := minor;
          versionBuild := build;
          versionRevision := revision;
          versionTag := read_tag s "MILE_PROJECT_VERSION_TAG";
          companyName := company;
          fileDescription := description;
          internalName := internal;
          legalCopyright := copyright;
          originalFilename := filename;
          productName := product |}.

(** The states passed while the lines of a file are processed, one per
    line, up to the first error. *)
Fixpoint run_states (ls : list line) (s : pp_state) : list pp_state :=
  match ls with
  | [] => []
  | l :: ls' =>
      match step l s with
      | Ok s' => s' :: run_states ls' s'
      | Err _ => []
      end
  end.

(** The translation unit right after its first inclusion of the header. *)
Definition included_once : pp_state :=
  match include_file Mile_Project_Properties_h initial with
  | Ok s => s
  | Err _ => initial
  end.

(** The header with its commented-out lines switched on: the configuration
    that line 19 keeps at hand for a tagged release. *)
Definition uncomment (l : line) : line :=
  match l with
  | Commented l' => l'
  | _ => l
  end.

(** ** The text of the file, counted *)

Definition is_define_of (name : string) (l : line) : bool :=
  match l with
  | Define name' _ => bool_decide (name' = name)
  | _ => false
  end.

Definition count_defines (name : string) (ls : list line) : nat :=
  length (filter (fun l => is_define_of name l = true) ls).

Definition is_undef (l : line) : bool :=
  match l with
  | Undef _ => true
  | _ => false
  end.

(** An event that changes a macro that was already there. *)
Definition is_mutation (e : event) : bool :=
  match e with
  | Redefined _ | Undefined _ => true
  | Defined _ | Included _ => false
  end.

Definition count_event (e : event) (es : list event) : nat :=
  length (filter (fun e' => e' = e) es).

(** ** The data model and the overview of the specification *)

Inductive field_type : Type :=
| IntField
| StringField
| OptionalStringField.

(** The fields of [ProjectProperties] in the order of the data model, each
    under the name of the macro that carries it. *)
Definition ProjectProperties_fields : list (string * field_type) :=
  [ ("MILE_PROJECT_VERSION_MAJOR", IntField);           (* versionMajor *)
    ("MILE_PROJECT_VERSION_MINOR", IntField);           (* versionMinor *)
    ("MILE_PROJECT_VERSION_BUILD", IntField);           (* versionBuild *)
    ("MILE_PROJECT_VERSION_REVISION", IntField);        (* versionRevision *)
    ("MILE_PROJECT_VERSION_TAG", OptionalStringField);  (* versionTag *)
    ("MILE_PROJECT_COMPANY_NAME", StringField);         (* companyName *)
    ("MILE_PROJECT_FILE_DESCRIPTION", StringField);     (* fileDescription *)
    ("MILE_PROJECT_INTERNAL_NAME", StringField);        (* internalName *)
    ("MILE_PROJECT_LEGAL_COPYRIGHT", StringField);      (* legalCopyright *)
    ("MILE_PROJECT_ORIGINAL_FILENAME", StringField);    (* originalFilename *)
    ("MILE_PROJECT_PRODUCT_NAME", StringField) ].       (* productName *)

Definition has_type (ty : field_type) (v : option (list pp_token)) : bool :=
  match ty, v with
  | IntField, Some [PpNumber _] => true
  | StringField, Some [StringLiteral _] => true
  | OptionalStringField, None => true
  | OptionalStringField, Some [StringLiteral _] => true
  | OptionalStringField, Some [WideStringLiteral _] => true
  | _, _ => false
  end.

Definition is_required (ty : field_type) : bool :=
  match ty with
  | OptionalStringField => false
  | IntField | StringField => true
  end.

Definition required_fields : list string :=
  (filter (fun f => is_required f.2 = true) ProjectProperties_fields).*1.

(** The table of name/value pairs: the macros that have a value.  The
    include guard is defined with an empty replacement list and is no
    pair of the table. *)
Definition name_value_pairs (s : pp_state) : gmap string (list pp_token) :=
  filter (fun nv => nv.2 <> []) (macros s).

(** The pairs as the system overview of the specification names them:
    product name, version major, minor, build and revision, company name,
    copyright string, file description, original filename. *)
Definition overview_pairs : list string :=
  [ "MILE_PROJECT_PRODUCT_NAME";
    "MILE_PROJECT_VERSION_MAJOR";
    "MILE_PROJECT_VERSION_MINOR";
    "MILE_PROJECT_VERSION_BUILD";
    "MILE_PROJECT_VERSION_REVISION";
    "MILE_PROJECT_COMPANY_NAME";
    "MILE_PROJECT_LEGAL_COPYRIGHT";
    "MILE_PROJECT_FILE_DESCRIPTION";
    "MILE_PROJECT_ORIGINAL_FILENAME" ].

(** A version component stored in the 16-bit word of a version resource. *)
Definition word16 (v : Z) : Z := Z.land v (Z.ones 16).

Definition version_components (p : ProjectProperties) : list Z :=
  [versionMajor p; versionMinor p; versionBuild p; versionRevision p].

(** The translation unit after its first inclusion and [k] further ones,
    as the lemmas below establish it. *)
Definition included_again (k : nat) : pp_state :=
  {| macros := macros included_once;
     cond_stack := [];
     events := events included_once
               ++ replicate k (Included "Mile.Project.Version.h") |}.

(** ** The definitions of a file, read off its text *)

(** The [#define] lines of a file in their order, whatever conditional
    they stand in; a line behind [//] is none. *)
Definition definition_of (l : line) : option (string * list pp_token) :=
  match l with
  | Define name body => Some (name, body)
  | _ => None
  end.

Definition definitions (ls : list line) : list (string * list pp_token) :=
  omap definition_of ls.

(** Definitions laid over a macro table, and executed from a state, one
    after the other. *)
Definition overlay (defs : list (string * list pp_token))
    (m : gmap string (list pp_token)) : gmap string (list pp_token) :=
  foldl (fun m nb => <[nb.1 := nb.2]> m) m defs.

Definition define_all (defs : list (string * list pp_token)) (s : pp_state)
  : pp_state :=
  foldl (fun s nb => define nb.1 nb.2 s) s defs.

(** The event of a [#define] executed over the table [m]. *)
Definition define_event (m : gmap string (list pp_token))
    (nb : string * list pp_token) : event :=
  match m !! nb.1 with
  | Some old => if decide (old = nb.2) then Defined nb.1 else Redefined nb.1
  | None => Defined nb.1
  end.

(** ** Translation units that are not empty when they include the header *)

(** One that has a build number and a version tag of its own (given on
    the command line, say). *)
Definition predefined : pp_state :=
  {| macros := {[ "MILE_PROJECT_VERSION_BUILD" := [PpNumber 5];
                  "MILE_PROJECT_VERSION_TAG" := [WideStringLiteral "Beta 2"] ]};
     cond_stack := [];
     events := [] |}.

(** One in which the name of the guard is taken. *)
Definition guard_taken : pp_state :=
  {| macros := {[ "MILE_PROJECT_PROPERTIES" := [] ]};
     cond_stack := [];
     events := [] |}.


(** A table whose replacement lists the tokens spell out in full: each
    is empty, or one decimal constant, or one string literal.  On such
    tables two replacement lists are the same tokens exactly when they
    are spelled the same. *)
Definition plain_body (body : list pp_token) : bool :=
  match body with
  | [] => true
  | [PpNumber n] => bool_decide (0 <= n)%Z
  | [StringLiteral _] | [WideStringLiteral _] => true
  | _ :: _ :: _ => false
  end.

Definition plain_table (m : gmap string (list pp_token)) : Prop :=
  map_Forall (fun _ body => plain_body body = true) m.

(** ** Inclusion with a search path *)








(** * Properties *)

(** ** Running the header line by line *)

Lemma is_defined_set_cond_stack (name : string) (st : list bool)
    (s : pp_state) :
  is_defined name (set_cond_stack st s) = is_defined name s.
Proof. reflexivity. Qed.

Section Lines.
Variables (ls : list line) (s : pp_state).

Lemma run_Blank : run (Blank :: ls) s = run ls s.
Proof. reflexivity. Qed.

Lemma run_Commented l : run (Commented l :: ls) s = run ls s.
Proof. reflexivity. Qed.

Lemma run_BlockComment text : run (BlockComment text :: ls) s = run ls s.
Proof. reflexivity. Qed.

Lemma run_Ifndef name :
  run (Ifndef name :: ls) s
  = run ls (push_cond (active s && negb (is_defined name s)) s).
Proof. reflexivity. Qed.

Lemma run_Endif b st :
  cond_stack s = b :: st ->
  run (Endif :: ls) s = run ls (set_cond_stack st s).
Proof. intros H. cbn [run step bind]. rewrite H. reflexivity. Qed.

Lemma run_Define name body :
  active s = true ->
  run (Define name body :: ls) s = run ls (define name body s).
Proof. intros H. cbn [run step bind]. rewrite H. reflexivity. Qed.

Lemma run_Define_skipped name body :
  active s = false -> run (Define name body :: ls) s = run ls s.
Proof. intros H. cbn [run step bind]. rewrite H. reflexivity. Qed.

Lemma run_Include file :
  active s = true ->
  run (Include file :: ls) s = run ls (include file s).
Proof. intros H. cbn [run step bind]. rewrite H. reflexivity. Qed.

Lemma run_Include_skipped file :
  active s = false -> run (Include file :: ls) s = run ls s.
Proof. intros H. cbn [run step bind]. rewrite H. reflexivity. Qed.
End Lines.

Ltac pp_line :=
  first [ rewrite run_Blank
        | rewrite run_Commented
        | rewrite run_BlockComment
        | rewrite run_Define by reflexivity
        | rewrite run_Define_skipped by reflexivity
        | rewrite run_Include by reflexivity
        | rewrite run_Include_skipped by reflexivity
        | erewrite run_Endif by reflexivity ].

(** Up to the guard's [#ifndef], then [tac] to settle whether the guard is
    defined, then the remaining lines. *)
Ltac pp_header tac :=
  unfold include_file, Mile_Project_Properties_h;
  rewrite run_BlockComment, run_Blank, run_Ifndef, is_defined_set_cond_stack;
  tac; cbn [active set_cond_stack cond_stack andb negb];
  repeat pp_line; cbn [run bind];
  cbn [cond_stack set_cond_stack include].

(** With the guard defined, the header leaves the macros alone and
    requests the version header. *)
Lemma reinclude (s : pp_state) :
  is_defined "MILE_PROJECT_PROPERTIES" s = true ->
  include_file Mile_Project_Properties_h s
  = Ok (include "Mile.Project.Version.h" s).
Proof.
  intros Hdef. pp_header ltac:(rewrite Hdef). reflexivity.
Qed.

(** With the guard not defined, the group is processed and defines it. *)
Lemma first_include (s : pp_state) :
  is_defined "MILE_PROJECT_PROPERTIES" s = false ->
  exists s', include_file Mile_Project_Properties_h s = Ok s'
    /\ is_defined "MILE_PROJECT_PROPERTIES" s' = true
    /\ last (events s') = Some (Included "Mile.Project.Version.h").
Proof.
  intros Hdef. pp_header ltac:(rewrite Hdef).
  eexists. split; [reflexivity|]. split.
  - unfold is_defined.
    cbn [macros set_cond_stack include define push_cond].
    rewrite !lookup_insert_ne by discriminate.
    rewrite lookup_insert_eq. reflexivity.
  - cbn [events set_cond_stack include]. apply last_snoc.
Qed.

Lemma include_defines_guard (s : pp_state) :
  exists s', include_file Mile_Project_Properties_h s = Ok s'
    /\ is_defined "MILE_PROJECT_PROPERTIES" s' = true
    /\ last (events s') = Some (Included "Mile.Project.Version.h").
Proof.
  destruct (is_defined "MILE_PROJECT_PROPERTIES" s) eqn:Hdef.
  - exists (include "Mile.Project.Version.h" s).
    split; [apply reinclude, Hdef|]. split; [exact Hdef|].
    cbn [events include]. apply last_snoc.
  - apply first_include, Hdef.
Qed.

Lemma include_times_total (k : nat) :
  forall s, exists s', include_times k s = Ok s'.
Proof.
  induction k as [|k IH]; intros s; cbn [include_times].
  - exists s. reflexivity.
  - destruct (include_defines_guard s) as (s1 & -> & _). cbn [bind]. apply IH.
Qed.

(** Once the guard is defined, further inclusions only add requests for
    the version header. *)
Lemma include_times_defined (k : nat) :
  forall s, is_defined "MILE_PROJECT_PROPERTIES" s = true ->
    include_times k s
    = Ok {| macros := macros s;
            cond_stack := cond_stack s;
            events := events s
                      ++ replicate k (Included "Mile.Project.Version.h") |}.
Proof.
  induction k as [|k IH]; intros s Hdef; cbn [include_times replicate].
  - rewrite app_nil_r. destruct s; reflexivity.
  - rewrite (reinclude s Hdef). cbn [bind].
    rewrite (IH (include "Mile.Project.Version.h" s) Hdef).
    cbn [macros cond_stack events include].
    rewrite <- app_assoc. reflexivity.
Qed.

Lemma include_initial :
  include_file Mile_Project_Properties_h initial = Ok included_once.
Proof.
  assert (H : match include_file Mile_Project_Properties_h initial with
              | Ok _ => True
              | Err _ => False
              end) by (vm_compute; exact I).
  unfold included_once.
  destruct (include_file Mile_Project_Properties_h initial);
    [reflexivity|destruct H].
Qed.

Lemma cond_stack_included_once : cond_stack included_once = [].
Proof. vm_compute. reflexivity. Qed.

Lemma is_defined_included_once :
  is_defined "MILE_PROJECT_PROPERTIES" included_once = true.
Proof. vm_compute. reflexivity. Qed.

Lemma include_times_initial (k : nat) :
  include_times (S k) initial = Ok (included_again k).
Proof.
  cbn [include_times]. rewrite include_initial. cbn [bind].
  rewrite (include_times_defined k _ is_defined_included_once).
  rewrite cond_stack_included_once. reflexivity.
Qed.

Lemma events_included_once :
  events included_once
  = (Defined <$> [ "MILE_PROJECT_PROPERTIES";
                   "MILE_PROJECT_VERSION_MAJOR";
                   "MILE_PROJECT_VERSION_MINOR";
                   "MILE_PROJECT_VERSION_BUILD";
                   "MILE_PROJECT_VERSION_REVISION";
                   "MILE_PROJECT_COMPANY_NAME";
                   "MILE_PROJECT_FILE_DESCRIPTION";
                   "MILE_PROJECT_INTERNAL_NAME";
                   "MILE_PROJECT_LEGAL_COPYRIGHT";
                   "MILE_PROJECT_ORIGINAL_FILENAME";
                   "MILE_PROJECT_PRODUCT_NAME" ])
    ++ [Included "Mile.Project.Version.h"].
Proof. vm_compute. reflexivity. Qed.

(** ** Counting events *)

Lemma count_event_app (e : event) (es1 es2 : list event) :
  count_event e (es1 ++ es2) = count_event e es1 + count_event e es2.
Proof. unfold count_event. rewrite filter_app, length_app. reflexivity. Qed.

Lemma count_event_replicate (e : event) (n : nat) :
  count_event e (replicate n e) = n.
Proof.
  unfold count_event. induction n as [|n IH]; [reflexivity|].
  cbn [replicate]. rewrite filter_cons_True by reflexivity.
  cbn [length]. rewrite IH. reflexivity.
Qed.

Lemma count_event_replicate_ne (e e' : event) (n : nat) :
  e' <> e -> count_event e (replicate n e') = 0.
Proof.
  intros Hne. unfold count_event. induction n as [|n IH]; [reflexivity|].
  cbn [replicate]. rewrite filter_cons_False by exact Hne. exact IH.
Qed.

(** ** The states passed during a later inclusion *)

Lemma run_states_app (l1 l2 : list line) (s s' : pp_state) :
  run l1 s = Ok s' ->
  run_states (l1 ++ l2) s = run_states l1 s ++ run_states l2 s'.
Proof.
  revert s. induction l1 as [|l l1 IH]; intros s; cbn [app run run_states].
  - intros [= ->]. reflexivity.
  - destruct (step l s) as [s1|e]; cbn [bind]; [|discriminate].
    intros H. rewrite (IH _ H). reflexivity.
Qed.

Lemma run_states_reinclude (s : pp_state) :
  is_defined "MILE_PROJECT_PROPERTIES" s = true ->
  Forall (fun s' => macros s' = macros s)
         (run_states Mile_Project_Properties_h (set_cond_stack [] s)).
Proof.
  intros Hdef.
  rewrite <- (take_drop 3 Mile_Project_Properties_h).
  rewrite (run_states_app _ _ _ (push_cond false (set_cond_stack [] s))).
  - apply Forall_app. split;
      unfold Mile_Project_Properties_h; cbn [take drop firstn skipn];
      cbn [run_states step active cond_stack push_cond set_cond_stack];
      repeat constructor.
  - unfold Mile_Project_Properties_h. cbn [take firstn].
    rewrite run_BlockComment, run_Blank, run_Ifndef.
    rewrite is_defined_set_cond_stack, Hdef. reflexivity.
Qed.

(** ** The values of the constants *)

(** C1. After any number of inclusions the four version constants have the
    release values: major 1, minor 0, build 360, revision 0. *)
Theorem version_constants (k : nat) :
  exists s p,
    include_times (S k) initial = Ok s /\
    project_properties s = Some p /\
    read_int s "MILE_PROJECT_VERSION_MAJOR" = Some 1%Z /\
    read_int s "MILE_PROJECT_VERSION_MINOR" = Some 0%Z /\
    read_int s "MILE_PROJECT_VERSION_BUILD" = Some 360%Z /\
    read_int s "MILE_PROJECT_VERSION_REVISION" = Some 0%Z /\
    versionMajor p = 1%Z /\
    versionMinor p = 0%Z /\
    versionBuild p = 360%Z /\
    versionRevision p = 0%Z.
Proof.
  eexists; eexists. split; [apply include_times_initial|].
  split; [vm_compute; reflexivity|].
  repeat split; vm_compute; reflexivity.
Qed.

(** C2. Each string constant is its literal: company name, file
    description, internal name, legal copyright, original filename and
    product name. *)
Theorem string_constants (k : nat) :
  exists s p,
    include_times (S k) initial = Ok s /\
    project_properties s = Some p /\
    companyName p = "Project Mile" /\
    fileDescription p = "Mile.Xaml" /\
    internalName p = "Mile.Xaml" /\
    legalCopyright p = "© Project Mile. All rights reserved." /\
    originalFilename p = "Mile.Xaml.dll" /\
    productName p = "Mile.Xaml".
Proof.
  eexists; eexists. split; [apply include_times_initial|].
  split; [vm_compute; reflexivity|].
  repeat split; vm_compute; reflexivity.
Qed.

(** The copyright sign of the legal copyright is the two bytes C2 A9 of
    its UTF-8 encoding, as in the file, followed by a space. *)
Lemma legal_copyright_bytes :
  exists p rest,
    project_properties included_once = Some p /\
    legalCopyright p
    = String (Ascii.ascii_of_nat 194) (String (Ascii.ascii_of_nat 169)
        (String (Ascii.ascii_of_nat 32) rest)) /\
    String.length (legalCopyright p) = 37.
Proof.
  eexists; eexists. split; [vm_compute; reflexivity|].
  split; vm_compute; reflexivity.
Qed.

(** C5. The version tag carries no value: its macro is not defined, and
    the optional field of the record is empty. *)
Theorem version_tag_absent (k : nat) :
  exists s p,
    include_times (S k) initial = Ok s /\
    project_properties s = Some p /\
    macros s !! "MILE_PROJECT_VERSION_TAG" = None /\
    is_defined "MILE_PROJECT_VERSION_TAG" s = false /\
    read_tag s "MILE_PROJECT_VERSION_TAG" = None /\
    versionTag p = None.
Proof.
  eexists; eexists. split; [apply include_times_initial|].
  split; [vm_compute; reflexivity|].
  repeat split; vm_compute; reflexivity.
Qed.

(** Were line 19 not a comment, the tag would be read. *)
Lemma version_tag_uncommented :
  match include_file (uncomment <$> Mile_Project_Properties_h) initial with
  | Ok s => versionTag <$> project_properties s
  | Err _ => None
  end = Some (Some "Alpha 1").
Proof. vm_compute. reflexivity. Qed.

(** C9. Each of the four version components is at least 0 and below
    2^16, so that storing it in a 16-bit word keeps it. *)
Theorem version_components_fit_word16 (k : nat) :
  exists s p,
    include_times (S k) initial = Ok s /\
    project_properties s = Some p /\
    version_components p = [1; 0; 360; 0]%Z /\
    Forall (fun v => (0 <= v < 2 ^ 16)%Z) (version_components p) /\
    Forall (fun v => word16 v = v) (version_components p).
Proof.
  eexists; eexists. split; [apply include_times_initial|].
  split; [vm_compute; reflexivity|].
  split; [reflexivity|].
  unfold version_components.
  cbn [versionMajor versionMinor versionBuild versionRevision].
  split.
  - repeat (constructor; [lia|]). constructor.
  - repeat (constructor; [reflexivity|]). constructor.
Qed.

(** C10. File description, internal name and product name are the same
    string, and the original filename is the product name followed by
    [.dll]. *)
Theorem names_consistent (k : nat) :
  exists s p,
    include_times (S k) initial = Ok s /\
    project_properties s = Some p /\
    fileDescription p = "Mile.Xaml" /\
    internalName p = "Mile.Xaml" /\
    productName p = "Mile.Xaml" /\
    fileDescription p = internalName p /\
    internalName p = productName p /\
    originalFilename p = productName p +:+ ".dll".
Proof.
  eexists; eexists. split; [apply include_times_initial|].
  split; [vm_compute; reflexivity|].
  repeat split; vm_compute; reflexivity.
Qed.

(** ** The shape of the table *)

(** C3. The macros of the header are the fields of the data model, each of
    its type, and apart from the include guard (which has no value) there
    is no other: four integers, six strings, and the optional tag. *)
Theorem record_fields_exact (k : nat) :
  exists s,
    include_times (S k) initial = Ok s /\
    project_properties s
    = Some {| versionMajor := 1;
              versionMinor := 0;
              versionBuild := 360;
              versionRevision := 0;
              versionTag := None;
              companyName := "Project Mile";
              fileDescription := "Mile.Xaml";
              internalName := "Mile.Xaml";
              legalCopyright := "© Project Mile. All rights reserved.";
              originalFilename := "Mile.Xaml.dll";
              productName := "Mile.Xaml" |} /\
    Forall (fun f => has_type f.2 (macros s !! f.1) = true)
           ProjectProperties_fields /\
    macros s !! "MILE_PROJECT_PROPERTIES" = Some [] /\
    dom (macros s) ∖ {["MILE_PROJECT_PROPERTIES"]}
    = list_to_set required_fields /\
    dom (macros s) ∖ {["MILE_PROJECT_PROPERTIES"]}
    ⊆ list_to_set (ProjectProperties_fields.*1) /\
    length ProjectProperties_fields = 11.
Proof.
  eexists. split; [apply include_times_initial|].
  split; [vm_compute; reflexivity|].
  split; [compute_done|].
  split; [vm_compute; reflexivity|].
  split; [compute_done|].
  split; [compute_done|reflexivity].
Qed.

(** C4, as stated, fails: the internal name is a pair of the table that
    the overview does not name. *)
Lemma overview_omits_internal_name :
  exists s,
    include_times 1 initial = Ok s /\
    name_value_pairs s !! "MILE_PROJECT_INTERNAL_NAME"
    = Some [StringLiteral "Mile.Xaml"] /\
    ("MILE_PROJECT_INTERNAL_NAME" ∉ overview_pairs) /\
    dom (name_value_pairs s) <> list_to_set overview_pairs.
Proof.
  eexists. split; [apply include_times_initial|].
  split; [vm_compute; reflexivity|].
  split; compute_done.
Qed.

(** C4, amended. The table of name/value pairs consists of exactly the
    pairs the overview names together with the internal name. *)
Theorem table_pairs_exact (k : nat) :
  exists s,
    include_times (S k) initial = Ok s /\
    dom (name_value_pairs s)
    = list_to_set overview_pairs ∪ {["MILE_PROJECT_INTERNAL_NAME"]} /\
    name_value_pairs s
    = list_to_map
        [ ("MILE_PROJECT_PRODUCT_NAME", [StringLiteral "Mile.Xaml"]);
          ("MILE_PROJECT_VERSION_MAJOR", [PpNumber 1]);
          ("MILE_PROJECT_VERSION_MINOR", [PpNumber 0]);
          ("MILE_PROJECT_VERSION_BUILD", [PpNumber 360]);
          ("MILE_PROJECT_VERSION_REVISION", [PpNumber 0]);
          ("MILE_PROJECT_COMPANY_NAME", [StringLiteral "Project Mile"]);
          ("MILE_PROJECT_LEGAL_COPYRIGHT",
           [StringLiteral "© Project Mile. All rights reserved."]);
          ("MILE_PROJECT_FILE_DESCRIPTION", [StringLiteral "Mile.Xaml"]);
          ("MILE_PROJECT_ORIGINAL_FILENAME", [StringLiteral "Mile.Xaml.dll"]);
          ("MILE_PROJECT_INTERNAL_NAME", [StringLiteral "Mile.Xaml"]) ] /\
    size (name_value_pairs s) = 10 /\
    name_value_pairs s = delete "MILE_PROJECT_PROPERTIES" (macros s).
Proof.
  eexists. split; [apply include_times_initial|].
  repeat split; compute_done.
Qed.

(** ** Immutability, totality and repeated inclusion *)

(** C6. The properties are immutable.  Whatever the number [k] of earlier
    inclusions: every macro of the table is defined by exactly one line
    of the file and by exactly one event of the translation unit; the file
    has no [#undef], and no event redefines or removes a macro; every
    state passed while the header is read holds a part of the final table,
    so that a macro, once defined, reads the same ever after; and the
    table is the same after any number of inclusions. *)
Theorem properties_immutable (k : nat) :
  exists s0 s,
    include_times k initial = Ok s0 /\
    include_file Mile_Project_Properties_h s0 = Ok s /\
    map_Forall (fun n _ => count_defines n Mile_Project_Properties_h = 1)
               (macros s) /\
    Forall (fun l => is_undef l = false) Mile_Project_Properties_h /\
    Forall (fun e => is_mutation e = false) (events s) /\
    map_Forall (fun n _ => count_event (Defined n) (events s) = 1)
               (macros s) /\
    Forall (fun s' => macros s' ⊆ macros s)
           (run_states Mile_Project_Properties_h (set_cond_stack [] s0)) /\
    (forall s1 s2 n v1 v2,
        s1 ∈ run_states Mile_Project_Properties_h (set_cond_stack [] s0) ->
        s2 ∈ run_states Mile_Project_Properties_h (set_cond_stack [] s0) ->
        macros s1 !! n = Some v1 -> macros s2 !! n = Some v2 -> v1 = v2) /\
    (forall j, exists sj,
        include_times (S j) initial = Ok sj /\ macros sj = macros s).
Proof.
  enough (H : exists s0 s,
    include_times k initial = Ok s0 /\
    include_file Mile_Project_Properties_h s0 = Ok s /\
    map_Forall (fun n _ => count_defines n Mile_Project_Properties_h = 1)
               (macros s) /\
    Forall (fun l => is_undef l = false) Mile_Project_Properties_h /\
    Forall (fun e => is_mutation e = false) (events s) /\
    map_Forall (fun n _ => count_event (Defined n) (events s) = 1)
               (macros s) /\
    Forall (fun s' => macros s' ⊆ macros s)
           (run_states Mile_Project_Properties_h (set_cond_stack [] s0)) /\
    (forall j, exists sj,
        include_times (S j) initial = Ok sj /\ macros sj = macros s)).
  { destruct H as (s0 & s & H1 & H2 & H3 & H4 & H5 & H6 & H7 & H8).
    exists s0, s. repeat (split; [assumption|]). split; [|exact H8].
    intros s1 s2 n v1 v2 Hs1 Hs2 Hv1 Hv2.
    rewrite Forall_forall in H7.
    pose proof (lookup_weaken _ _ _ _ Hv1 (H7 s1 Hs1)) as E1.
    pose proof (lookup_weaken _ _ _ _ Hv2 (H7 s2 Hs2)) as E2.
    congruence. }
  assert (Hlater : forall j, exists sj,
             include_times (S j) initial = Ok sj
             /\ macros sj = macros included_once).
  { intros j. exists (included_again j).
    split; [apply include_times_initial|reflexivity]. }
  destruct k as [|k].
  - exists initial, included_once.
    split; [reflexivity|]. split; [apply include_initial|].
    split; [compute_done|]. split; [compute_done|]. split; [compute_done|].
    split; [compute_done|]. split; [compute_done|]. exact Hlater.
  - assert (Hdef : is_defined "MILE_PROJECT_PROPERTIES" (included_again k)
                   = true) by (vm_compute; reflexivity).
    exists (included_again k), (include "Mile.Project.Version.h"
                                        (included_again k)).
    split; [apply include_times_initial|].
    split; [apply reinclude, Hdef|].
    split; [compute_done|]. split; [compute_done|].
    split; [|split; [|split; [|exact Hlater]]].
    + cbn [events include included_again].
      rewrite !Forall_app. split; [split|].
      * compute_done.
      * apply Forall_replicate. reflexivity.
      * repeat constructor.
    + assert (Honce : map_Forall
                (fun n _ => count_event (Defined n) (events included_once) = 1)
                (macros included_once)) by compute_done.
      intros n body Hn. cbn [events include included_again].
      rewrite !count_event_app, (Honce n body Hn).
      rewrite count_event_replicate_ne by discriminate.
      unfold count_event. rewrite filter_cons_False by discriminate.
      reflexivity.
    + eapply Forall_impl; [apply run_states_reinclude, Hdef|].
      intros s' Hs'. cbn beta in Hs'. rewrite Hs'. reflexivity.
Qed.

(** C8. Including the header again defines nothing: from any state, a
    second inclusion leaves the macro table of the first as it is.  The
    [#include] of the version header is outside the guard: it is the last
    event of the first inclusion and the one event of the second, and
    after [k + 1] inclusions it has been requested [k + 1] times, after
    the eleven definitions of the first. *)
Theorem reinclusion_idempotent :
  (forall s, exists s1 s2,
      include_file Mile_Project_Properties_h s = Ok s1 /\
      include_file Mile_Project_Properties_h s1 = Ok s2 /\
      macros s2 = macros s1 /\
      last (events s1) = Some (Included "Mile.Project.Version.h") /\
      events s2 = events s1 ++ [Included "Mile.Project.Version.h"]) /\
  (forall k, exists s,
      include_times (S k) initial = Ok s /\
      events s
      = (Defined <$> [ "MILE_PROJECT_PROPERTIES";
                       "MILE_PROJECT_VERSION_MAJOR";
                       "MILE_PROJECT_VERSION_MINOR";
                       "MILE_PROJECT_VERSION_BUILD";
                       "MILE_PROJECT_VERSION_REVISION";
                       "MILE_PROJECT_COMPANY_NAME";
                       "MILE_PROJECT_FILE_DESCRIPTION";
                       "MILE_PROJECT_INTERNAL_NAME";
                       "MILE_PROJECT_LEGAL_COPYRIGHT";
                       "MILE_PROJECT_ORIGINAL_FILENAME";
                       "MILE_PROJECT_PRODUCT_NAME" ])
        ++ replicate (S k) (Included "Mile.Project.Version.h") /\
      count_event (Included "Mile.Project.Version.h") (events s) = S k).
Proof.
  split.
  - intros s. destruct (include_defines_guard s) as (s1 & Hs1 & Hdef & Hlast).
    exists s1, (include "Mile.Project.Version.h" s1).
    split; [exact Hs1|]. split; [apply reinclude, Hdef|].
    split; [reflexivity|]. split; [exact Hlast|reflexivity].
  - intros k. exists (included_again k).
    split; [apply include_times_initial|].
    assert (Hev : events (included_again k)
                  = (Defined <$> [ "MILE_PROJECT_PROPERTIES";
                       "MILE_PROJECT_VERSION_MAJOR";
                       "MILE_PROJECT_VERSION_MINOR";
                       "MILE_PROJECT_VERSION_BUILD";
                       "MILE_PROJECT_VERSION_REVISION";
                       "MILE_PROJECT_COMPANY_NAME";
                       "MILE_PROJECT_FILE_DESCRIPTION";
                       "MILE_PROJECT_INTERNAL_NAME";
                       "MILE_PROJECT_LEGAL_COPYRIGHT";
                       "MILE_PROJECT_ORIGINAL_FILENAME";
                       "MILE_PROJECT_PRODUCT_NAME" ])
                    ++ replicate (S k) (Included "Mile.Project.Version.h")).
    { cbn [events included_again]. rewrite events_included_once.
      rewrite <- app_assoc. reflexivity. }
    split; [exact Hev|]. rewrite Hev.
    rewrite count_event_app, count_event_replicate. reflexivity.
Qed.

(** * The header in any translation unit *)

(** ** Executing a list of definitions *)

Lemma define_all_nil (s : pp_state) : define_all [] s = s.
Proof. reflexivity. Qed.

Lemma define_all_cons (name : string) (body : list pp_token)
    (defs : list (string * list pp_token)) (s : pp_state) :
  define_all ((name, body) :: defs) s = define_all defs (define name body s).
Proof. reflexivity. Qed.

Lemma macros_define_all (defs : list (string * list pp_token)) :
  forall s, macros (define_all defs s) = overlay defs (macros s).
Proof.
  induction defs as [|[n b] defs IH]; intros s; [reflexivity|].
  rewrite define_all_cons, IH. reflexivity.
Qed.

Lemma cond_stack_define_all (defs : list (string * list pp_token)) :
  forall s, cond_stack (define_all defs s) = cond_stack s.
Proof.
  induction defs as [|[n b] defs IH]; intros s; [reflexivity|].
  rewrite define_all_cons, IH. reflexivity.
Qed.

Lemma overlay_lookup_notin (defs : list (string * list pp_token)) (n : string) :
  n ∉ defs.*1 ->
  forall m : gmap string (list pp_token), overlay defs m !! n = m !! n.
Proof.
  induction defs as [|[n0 b0] defs IH]; intros Hn m; [reflexivity|].
  cbn [fmap list_fmap fst] in Hn. apply not_elem_of_cons in Hn as [Hne Hn].
  unfold overlay. cbn [foldl fst snd]. fold (overlay defs (<[n0:=b0]> m)).
  rewrite (IH Hn). apply lookup_insert_ne. congruence.
Qed.

Lemma overlay_lookup_in (defs : list (string * list pp_token)) (n : string)
    (b : list pp_token) :
  NoDup defs.*1 -> (n, b) ∈ defs ->
  forall m : gmap string (list pp_token), overlay defs m !! n = Some b.
Proof.
  induction defs as [|[n0 b0] defs IH]; intros Hnd Hin m.
  - apply elem_of_nil in Hin. destruct Hin.
  - cbn [fmap list_fmap fst] in Hnd. apply NoDup_cons in Hnd as [Hn0 Hnd].
    unfold overlay. cbn [foldl fst snd]. fold (overlay defs (<[n0:=b0]> m)).
    apply elem_of_cons in Hin as [[= -> ->]|Hin].
    + rewrite (overlay_lookup_notin _ _ Hn0). apply lookup_insert_eq.
    + apply (IH Hnd Hin).
Qed.

Lemma define_event_insert_ne (m : gmap string (list pp_token))
    (n : string) (b : list pp_token) (nb : string * list pp_token) :
  nb.1 <> n -> define_event (<[n:=b]> m) nb = define_event m nb.
Proof.
  intros Hne. unfold define_event. rewrite lookup_insert_ne by congruence.
  reflexivity.
Qed.

Lemma events_define_all (defs : list (string * list pp_token)) :
  NoDup defs.*1 ->
  forall s, events (define_all defs s)
            = events s ++ (define_event (macros s) <$> defs).
Proof.
  induction defs as [|[n b] defs IH]; intros Hnd s.
  - cbn [fmap list_fmap]. rewrite app_nil_r. reflexivity.
  - cbn [fmap list_fmap fst] in Hnd. apply NoDup_cons in Hnd as [Hn Hnd].
    rewrite define_all_cons, (IH Hnd). cbn [events macros define].
    rewrite <- app_assoc. cbn [app fmap list_fmap]. f_equal. f_equal.
    apply list_fmap_ext. intros i nb Hnb.
    apply define_event_insert_ne. intros Heq. apply Hn. rewrite <- Heq.
    apply list_elem_of_fmap. exists nb. split; [reflexivity|].
    apply list_elem_of_lookup. exists i. exact Hnb.
Qed.

(** ** The header run from any state *)

Lemma definitions_header :
  definitions Mile_Project_Properties_h
  = [ ("MILE_PROJECT_PROPERTIES", []);
      ("MILE_PROJECT_VERSION_MAJOR", [PpNumber 1]);
      ("MILE_PROJECT_VERSION_MINOR", [PpNumber 0]);
      ("MILE_PROJECT_VERSION_BUILD", [PpNumber 360]);
      ("MILE_PROJECT_VERSION_REVISION", [PpNumber 0]);
      ("MILE_PROJECT_COMPANY_NAME", [StringLiteral "Project Mile"]);
      ("MILE_PROJECT_FILE_DESCRIPTION", [StringLiteral "Mile.Xaml"]);
      ("MILE_PROJECT_INTERNAL_NAME", [StringLiteral "Mile.Xaml"]);
      ("MILE_PROJECT_LEGAL_COPYRIGHT",
       [StringLiteral "© Project Mile. All rights reserved."]);
      ("MILE_PROJECT_ORIGINAL_FILENAME", [StringLiteral "Mile.Xaml.dll"]);
      ("MILE_PROJECT_PRODUCT_NAME", [StringLiteral "Mile.Xaml"]) ].
Proof. reflexivity. Qed.

Lemma definitions_header_NoDup :
  NoDup (definitions Mile_Project_Properties_h).*1.
Proof. compute_done. Qed.

(** The lines after the guard's [#ifndef], up to the trailing [#include]
    (which is settled by [tac]). *)
Ltac pp_group tac :=
  cbn [andb negb]; repeat pp_line; tac; cbn [run].

Lemma run_header_fresh (s : pp_state) :
  active s = true ->
  is_defined "MILE_PROJECT_PROPERTIES" s = false ->
  run Mile_Project_Properties_h s
  = Ok (include "Mile.Project.Version.h"
          (set_cond_stack (cond_stack s)
             (define_all (definitions Mile_Project_Properties_h)
                         (push_cond true s)))).
Proof.
  intros Hact Hdef. rewrite definitions_header.
  rewrite !define_all_cons, define_all_nil.
  unfold Mile_Project_Properties_h.
  rewrite run_BlockComment, run_Blank, run_Ifndef, Hact, Hdef.
  pp_group ltac:(rewrite run_Include by exact Hact). reflexivity.
Qed.

Lemma run_header_guarded (s : pp_state) :
  active s = true ->
  is_defined "MILE_PROJECT_PROPERTIES" s = true ->
  run Mile_Project_Properties_h s
  = Ok (include "Mile.Project.Version.h"
          (set_cond_stack (cond_stack s) (push_cond false s))).
Proof.
  intros Hact Hdef. unfold Mile_Project_Properties_h.
  rewrite run_BlockComment, run_Blank, run_Ifndef, Hact, Hdef.
  pp_group ltac:(rewrite run_Include by exact Hact). reflexivity.
Qed.

Lemma run_header_skipped (s : pp_state) :
  active s = false -> run Mile_Project_Properties_h s = Ok s.
Proof.
  intros Hact. unfold Mile_Project_Properties_h.
  rewrite run_BlockComment, run_Blank, run_Ifndef, Hact.
  pp_group ltac:(rewrite run_Include_skipped by exact Hact). destruct s; reflexivity.
Qed.

Lemma include_fresh (s : pp_state) :
  is_defined "MILE_PROJECT_PROPERTIES" s = false ->
  include_file Mile_Project_Properties_h s
  = Ok (set_cond_stack (cond_stack s)
          (include "Mile.Project.Version.h"
             (set_cond_stack []
                (define_all (definitions Mile_Project_Properties_h)
                            (push_cond true (set_cond_stack [] s)))))).
Proof.
  intros Hdef. unfold include_file.
  rewrite (run_header_fresh (set_cond_stack [] s) eq_refl Hdef).
  cbn [bind cond_stack include set_cond_stack]. reflexivity.
Qed.

Lemma macros_set_cond_stack (st : list bool) (s : pp_state) :
  macros (set_cond_stack st s) = macros s.
Proof. reflexivity. Qed.

Lemma macros_push_cond (b : bool) (s : pp_state) :
  macros (push_cond b s) = macros s.
Proof. reflexivity. Qed.

Lemma macros_include (file : string) (s : pp_state) :
  macros (include file s) = macros s.
Proof. reflexivity. Qed.

Lemma events_set_cond_stack (st : list bool) (s : pp_state) :
  events (set_cond_stack st s) = events s.
Proof. reflexivity. Qed.

Lemma events_push_cond (b : bool) (s : pp_state) :
  events (push_cond b s) = events s.
Proof. reflexivity. Qed.

Lemma events_include (file : string) (s : pp_state) :
  events (include file s) = events s ++ [Included file].
Proof. reflexivity. Qed.

Lemma include_fresh_spec (s : pp_state) :
  is_defined "MILE_PROJECT_PROPERTIES" s = false ->
  exists s',
    include_file Mile_Project_Properties_h s = Ok s' /\
    cond_stack s' = cond_stack s /\
    macros s' = overlay (definitions Mile_Project_Properties_h) (macros s) /\
    events s'
    = events s
      ++ (define_event (macros s) <$> definitions Mile_Project_Properties_h)
      ++ [Included "Mile.Project.Version.h"].
Proof.
  intros Hdef. eexists. split; [apply include_fresh, Hdef|].
  split; [reflexivity|]. split.
  - rewrite macros_set_cond_stack, macros_include, macros_set_cond_stack.
    rewrite macros_define_all, macros_push_cond, macros_set_cond_stack.
    reflexivity.
  - rewrite events_set_cond_stack, events_include, events_set_cond_stack.
    rewrite (events_define_all _ definitions_header_NoDup).
    rewrite events_push_cond, events_set_cond_stack.
    rewrite macros_push_cond, macros_set_cond_stack.
    rewrite <- app_assoc. reflexivity.
Qed.

Lemma include_guarded_spec (s : pp_state) :
  is_defined "MILE_PROJECT_PROPERTIES" s = true ->
  exists s',
    include_file Mile_Project_Properties_h s = Ok s' /\
    cond_stack s' = cond_stack s /\
    macros s' = macros s /\
    events s' = events s ++ [Included "Mile.Project.Version.h"].
Proof.
  intros Hdef. eexists. split; [apply reinclude, Hdef|].
  split; [reflexivity|]. split; reflexivity.
Qed.

Lemma include_cond_stack (s s' : pp_state) :
  include_file Mile_Project_Properties_h s = Ok s' ->
  cond_stack s' = cond_stack s.
Proof.
  intros Hs'. destruct (is_defined "MILE_PROJECT_PROPERTIES" s) eqn:Hdef.
  - destruct (include_guarded_spec s Hdef) as (s1 & Hs1 & Hc & _).
    rewrite Hs' in Hs1. injection Hs1 as <-. exact Hc.
  - destruct (include_fresh_spec s Hdef) as (s1 & Hs1 & Hc & _).
    rewrite Hs' in Hs1. injection Hs1 as <-. exact Hc.
Qed.

(** ** The macro table and the events after an inclusion *)

(** X1. Including the header, from any state in which the directive is
    processed, keeps the conditional stack of the includer, and the macro
    table becomes: itself when the guard is defined, and otherwise the
    [#define] lines of the file laid over it in their order. *)
Theorem include_table (s : pp_state) :
  active s = true ->
  exists s',
    include_file Mile_Project_Properties_h s = Ok s' /\
    cond_stack s' = cond_stack s /\
    macros s'
    = if is_defined "MILE_PROJECT_PROPERTIES" s then macros s
      else overlay (definitions Mile_Project_Properties_h) (macros s).
Proof.
  intros _. destruct (is_defined "MILE_PROJECT_PROPERTIES" s) eqn:Hdef.
  - destruct (include_guarded_spec s Hdef) as (s' & Hs' & Hc & Hm & _).
    exists s'. auto.
  - destruct (include_fresh_spec s Hdef) as (s' & Hs' & Hc & Hm & _).
    exists s'. auto.
Qed.

Lemma include_table_witness :
  active predefined = true /\
  exists s',
    include_file Mile_Project_Properties_h predefined = Ok s' /\
    cond_stack s' = cond_stack predefined /\
    macros s'
    = if is_defined "MILE_PROJECT_PROPERTIES" predefined
      then macros predefined
      else overlay (definitions Mile_Project_Properties_h)
                   (macros predefined).
Proof.
  split; [reflexivity|]. apply (include_table predefined). reflexivity.
Defined.

(** X2. The events of an inclusion, from any state in which the directive
    is processed and whose table is plain (decimal constants and string
    literals): with the guard defined, the request for the version header
    alone; otherwise one event for each [#define] line in the order of the
    file, each judged against the table as it was before the inclusion,
    and then the request. *)
Theorem include_events (s : pp_state) :
  active s = true ->
  plain_table (macros s) ->
  exists s',
    include_file Mile_Project_Properties_h s = Ok s' /\
    events s'
    = events s
      ++ (if is_defined "MILE_PROJECT_PROPERTIES" s then []
          else define_event (macros s)
                 <$> definitions Mile_Project_Properties_h)
      ++ [Included "Mile.Project.Version.h"].
Proof.
  intros _ _. destruct (is_defined "MILE_PROJECT_PROPERTIES" s) eqn:Hdef.
  - destruct (include_guarded_spec s Hdef) as (s' & Hs' & _ & _ & He).
    exists s'. auto.
  - destruct (include_fresh_spec s Hdef) as (s' & Hs' & _ & _ & He).
    exists s'. auto.
Qed.

Lemma include_events_witness :
  active predefined = true /\
  plain_table (macros predefined) /\
  exists s',
    include_file Mile_Project_Properties_h predefined = Ok s' /\
    events s'
    = events predefined
      ++ (if is_defined "MILE_PROJECT_PROPERTIES" predefined then []
          else define_event (macros predefined)
                 <$> definitions Mile_Project_Properties_h)
      ++ [Included "Mile.Project.Version.h"].
Proof.
  split; [reflexivity|]. split; [compute_done|].
  apply (include_events predefined); [reflexivity|compute_done].
Defined.

(** ** What the header does to the macros of others, and to its own *)

Lemma header_value (n : string) (b : list pp_token)
    (m : gmap string (list pp_token)) :
  (n, b) ∈ definitions Mile_Project_Properties_h ->
  overlay (definitions Mile_Project_Properties_h) m !! n = Some b.
Proof. intros Hin. apply (overlay_lookup_in _ _ _ definitions_header_NoDup Hin). Qed.

(** X3. Where the directive is processed and the guard is not defined,
    the record read after the inclusion has the values of the header
    whatever the translation unit defined before: a build number given
    earlier is overridden.  The version tag alone is the includer's,
    since the header does not define it. *)
Theorem include_overrides (s : pp_state) :
  active s = true ->
  is_defined "MILE_PROJECT_PROPERTIES" s = false ->
  exists s',
    include_file Mile_Project_Properties_h s = Ok s' /\
    project_properties s'
    = Some {| versionMajor := 1;
              versionMinor := 0;
              versionBuild := 360;
              versionRevision := 0;
              versionTag := read_tag s "MILE_PROJECT_VERSION_TAG";
              companyName := "Project Mile";
              fileDescription := "Mile.Xaml";
              internalName := "Mile.Xaml";
              legalCopyright := "© Project Mile. All rights reserved.";
              originalFilename := "Mile.Xaml.dll";
              productName := "Mile.Xaml" |}.
Proof.
  intros _ Hdef.
  destruct (include_fresh_spec s Hdef) as (s' & Hs' & _ & Hm & _).
  exists s'. split; [exact Hs'|].
  unfold project_properties, read_int, read_string, read_tag. rewrite Hm.
  rewrite (header_value "MILE_PROJECT_VERSION_MAJOR" [PpNumber 1])
    by compute_done.
  rewrite (header_value "MILE_PROJECT_VERSION_MINOR" [PpNumber 0])
    by compute_done.
  rewrite (header_value "MILE_PROJECT_VERSION_BUILD" [PpNumber 360])
    by compute_done.
  rewrite (header_value "MILE_PROJECT_VERSION_REVISION" [PpNumber 0])
    by compute_done.
  rewrite (header_value "MILE_PROJECT_COMPANY_NAME"
             [StringLiteral "Project Mile"]) by compute_done.
  rewrite (header_value "MILE_PROJECT_FILE_DESCRIPTION"
             [StringLiteral "Mile.Xaml"]) by compute_done.
  rewrite (header_value "MILE_PROJECT_INTERNAL_NAME"
             [StringLiteral "Mile.Xaml"]) by compute_done.
  rewrite (header_value "MILE_PROJECT_LEGAL_COPYRIGHT"
             [StringLiteral "© Project Mile. All rights reserved."])
    by compute_done.
  rewrite (header_value "MILE_PROJECT_ORIGINAL_FILENAME"
             [StringLiteral "Mile.Xaml.dll"]) by compute_done.
  rewrite (header_value "MILE_PROJECT_PRODUCT_NAME"
             [StringLiteral "Mile.Xaml"]) by compute_done.
  rewrite (overlay_lookup_notin _ "MILE_PROJECT_VERSION_TAG")
    by compute_done.
  reflexivity.
Qed.

Lemma include_overrides_witness :
  read_int predefined "MILE_PROJECT_VERSION_BUILD" = Some 5%Z /\
  read_tag predefined "MILE_PROJECT_VERSION_TAG" = Some "Beta 2" /\
  exists s',
    include_file Mile_Project_Properties_h predefined = Ok s' /\
    project_properties s'
    = Some {| versionMajor := 1;
              versionMinor := 0;
              versionBuild := 360;
              versionRevision := 0;
              versionTag := read_tag predefined "MILE_PROJECT_VERSION_TAG";
              companyName := "Project Mile";
              fileDescription := "Mile.Xaml";
              internalName := "Mile.Xaml";
              legalCopyright := "© Project Mile. All rights reserved.";
              originalFilename := "Mile.Xaml.dll";
              productName := "Mile.Xaml" |}.
Proof.
  split; [vm_compute; reflexivity|]. split; [vm_compute; reflexivity|].
  apply (include_overrides predefined);
    [reflexivity|vm_compute; reflexivity].
Defined.

(** X4. The header leaves every macro alone that none of its [#define]
    lines names: after the inclusion, from any state, such a name reads
    as before. *)
Theorem include_frame (s : pp_state) (n : string) :
  n ∉ (definitions Mile_Project_Properties_h).*1 ->
  exists s',
    include_file Mile_Project_Properties_h s = Ok s' /\
    macros s' !! n = macros s !! n.
Proof.
  intros Hn. destruct (is_defined "MILE_PROJECT_PROPERTIES" s) eqn:Hdef.
  - destruct (include_guarded_spec s Hdef) as (s' & Hs' & _ & Hm & _).
    exists s'. rewrite Hm. auto.
  - destruct (include_fresh_spec s Hdef) as (s' & Hs' & _ & Hm & _).
    exists s'. rewrite Hm. split; [exact Hs'|].
    apply overlay_lookup_notin, Hn.
Qed.

Lemma include_frame_witness :
  exists s',
    include_file Mile_Project_Properties_h predefined = Ok s' /\
    macros s' !! "MILE_PROJECT_VERSION_TAG"
    = macros predefined !! "MILE_PROJECT_VERSION_TAG".
Proof.
  apply (include_frame predefined "MILE_PROJECT_VERSION_TAG"). compute_done.
Defined.

(** X5. The header never removes a macro: a name that is defined before
    the inclusion, in any state, is defined after it. *)
Theorem include_keeps_defined (s : pp_state) (n : string) :
  is_defined n s = true ->
  exists s',
    include_file Mile_Project_Properties_h s = Ok s' /\
    is_defined n s' = true.
Proof.
  intros Hn. destruct (is_defined "MILE_PROJECT_PROPERTIES" s) eqn:Hdef.
  - destruct (include_guarded_spec s Hdef) as (s' & Hs' & _ & Hm & _).
    exists s'. split; [exact Hs'|]. unfold is_defined in *. rewrite Hm.
    exact Hn.
  - destruct (include_fresh_spec s Hdef) as (s' & Hs' & _ & Hm & _).
    exists s'. split; [exact Hs'|]. unfold is_defined in *. rewrite Hm.
    destruct (decide (n ∈ (definitions Mile_Project_Properties_h).*1))
      as [Hin|Hout].
    + apply list_elem_of_fmap in Hin as ([n' b] & -> & Hin).
      rewrite (header_value _ _ _ Hin). reflexivity.
    + rewrite (overlay_lookup_notin _ _ Hout). exact Hn.
Qed.

Lemma include_keeps_defined_witness :
  exists s',
    include_file Mile_Project_Properties_h predefined = Ok s' /\
    is_defined "MILE_PROJECT_VERSION_BUILD" s' = true.
Proof.
  apply (include_keeps_defined predefined "MILE_PROJECT_VERSION_BUILD").
  vm_compute. reflexivity.
Defined.

(** X6. Where the directive is processed and the guard is already
    defined, the header defines nothing, so the record is read after the
    inclusion exactly as before it (not at all, if the properties were not
    there), while the version header is requested all the same. *)
Theorem guard_taken_suppresses (s : pp_state) :
  active s = true ->
  is_defined "MILE_PROJECT_PROPERTIES" s = true ->
  exists s',
    include_file Mile_Project_Properties_h s = Ok s' /\
    project_properties s' = project_properties s /\
    events s' = events s ++ [Included "Mile.Project.Version.h"].
Proof.
  intros _ Hdef.
  destruct (include_guarded_spec s Hdef) as (s' & Hs' & _ & Hm & He).
  exists s'. split; [exact Hs'|]. split; [|exact He].
  unfold project_properties, read_int, read_string, read_tag.
  rewrite Hm. reflexivity.
Qed.

Lemma guard_taken_suppresses_witness :
  project_properties guard_taken = None /\
  exists s',
    include_file Mile_Project_Properties_h guard_taken = Ok s' /\
    project_properties s' = project_properties guard_taken /\
    events s' = events guard_taken ++ [Included "Mile.Project.Version.h"].
Proof.
  split; [vm_compute; reflexivity|].
  apply (guard_taken_suppresses guard_taken);
    [reflexivity|vm_compute; reflexivity].
Defined.

(** X7. From any state in which the directives are processed, after the
    first inclusion the further ones change neither the macro table nor
    the conditional stack: each adds one request for the version header
    and nothing else. *)
Theorem include_times_any_state (k : nat) (s : pp_state) :
  active s = true ->
  exists s1 sk,
    include_file Mile_Project_Properties_h s = Ok s1 /\
    include_times (S k) s = Ok sk /\
    macros sk = macros s1 /\
    cond_stack sk = cond_stack s /\
    events sk
    = events s1 ++ replicate k (Included "Mile.Project.Version.h").
Proof.
  intros _. destruct (include_defines_guard s) as (s1 & Hs1 & Hdef1 & _).
  pose proof (include_cond_stack s s1 Hs1) as Hc.
  eexists s1, _. split; [exact Hs1|].
  cbn [include_times]. rewrite Hs1. cbn [bind].
  split; [apply (include_times_defined k s1 Hdef1)|].
  split; [reflexivity|]. split; [exact Hc|reflexivity].
Qed.

Lemma include_times_any_state_witness :
  active predefined = true /\
  exists s1 sk,
    include_file Mile_Project_Properties_h predefined = Ok s1 /\
    include_times 3 predefined = Ok sk /\
    macros sk = macros s1 /\
    cond_stack sk = cond_stack predefined /\
    events sk
    = events s1 ++ replicate 2 (Included "Mile.Project.Version.h").
Proof.
  split; [reflexivity|].
  apply (include_times_any_state 2 predefined). reflexivity.
Defined.

(** X8. The conditional of the header is balanced wherever its lines are
    read: from any state, with any conditionals open, they end with the
    stack they started with.  Read inside a group that is skipped they
    change nothing at all; read where lines are processed they end with
    the request for the version header. *)
Theorem run_balanced (s : pp_state) :
  exists s',
    run Mile_Project_Properties_h s = Ok s' /\
    cond_stack s' = cond_stack s /\
    if active s then
      last (events s') = Some (Included "Mile.Project.Version.h")
    else s' = s.
Proof.
  destruct (active s) eqn:Hact.
  - destruct (is_defined "MILE_PROJECT_PROPERTIES" s) eqn:Hdef.
    + eexists. split; [apply (run_header_guarded s Hact Hdef)|].
      split; [reflexivity|]. rewrite events_include. apply last_snoc.
    + eexists. split; [apply (run_header_fresh s Hact Hdef)|].
      split; [reflexivity|]. rewrite events_include. apply last_snoc.
  - exists s. split; [apply (run_header_skipped s Hact)|].
    split; reflexivity.
Qed.

(** X9. Where the directive is processed, the guard is not defined and
    the table of the includer is plain (decimal constants and string
    literals), the inclusion reports the redefinition of a name exactly
    when the translation unit had given that name a replacement list
    other than the one of the header. *)
Theorem redefinition_diagnosed (s : pp_state) :
  active s = true ->
  plain_table (macros s) ->
  is_defined "MILE_PROJECT_PROPERTIES" s = false ->
  exists s' new,
    include_file Mile_Project_Properties_h s = Ok s' /\
    events s' = events s ++ new /\
    forall n,
      Redefined n ∈ new <->
      exists old b,
        macros s !! n = Some old /\
        (n, b) ∈ definitions Mile_Project_Properties_h /\
        old <> b.
Proof.
  intros _ _ Hdef.
  destruct (include_fresh_spec s Hdef) as (s' & Hs' & _ & _ & He).
  eexists s', _. split; [exact Hs'|]. split; [exact He|].
  intros n. rewrite elem_of_app, list_elem_of_fmap, list_elem_of_singleton.
  split.
  - intros [([n' b] & Hev & Hin)|Hev]; [|discriminate Hev].
    unfold define_event in Hev. cbn [fst snd] in Hev.
    destruct (macros s !! n') as [old|] eqn:Hold; [|discriminate Hev].
    destruct (decide (old = b)) as [Heq|Hne]; [discriminate Hev|].
    injection Hev as ->. exists old, b. auto.
  - intros (old & b & Hold & Hin & Hne). left. exists (n, b).
    split; [|exact Hin]. unfold define_event. cbn [fst snd].
    rewrite Hold. destruct (decide (old = b)); [contradiction|reflexivity].
Qed.

Lemma redefinition_diagnosed_witness :
  exists s' new,
    include_file Mile_Project_Properties_h predefined = Ok s' /\
    events s' = events predefined ++ new /\
    (Redefined "MILE_PROJECT_VERSION_BUILD" ∈ new) /\
    (Redefined "MILE_PROJECT_VERSION_TAG" ∉ new) /\
    (Redefined "MILE_PROJECT_PRODUCT_NAME" ∉ new).
Proof.
  assert (Hplain : plain_table (macros predefined)) by compute_done.
  destruct (redefinition_diagnosed predefined eq_refl Hplain eq_refl)
    as (s' & new & Hs' & He & Hnew).
  exists s', new. split; [exact Hs'|]. split; [exact He|].
  split; [|split].
  - apply Hnew. exists [PpNumber 5], [PpNumber 360].
    split; [vm_compute; reflexivity|]. split; [compute_done|discriminate].
  - intros H. apply Hnew in H as (old & b & _ & Hin & _).
    assert (Hnot : "MILE_PROJECT_VERSION_TAG"
                   ∉ (definitions Mile_Project_Properties_h).*1)
      by compute_done.
    apply Hnot, list_elem_of_fmap. exists ("MILE_PROJECT_VERSION_TAG", b).
    split; [reflexivity|exact Hin].
  - intros H. apply Hnew in H as (old & b & Hold & _ & _).
    vm_compute in Hold. discriminate Hold.
Defined.

(** * The search path *)

(** ** Where every included file is found, nothing is added to [run] *)








(** ** Failure and its absence *)



